(** * WorkspacesListRow: one row of the workspaces list

    A shallow embedding of [src/pages/workspace/WorkspacesListRow.tsx].

    The component is a function from its props and its hook state to a React
    element tree (or [null]).  Its only state is the anchor position of the
    three-dots menu ([useState]) and a ref to the menu's container view
    ([useRef]); the only way the state changes is the callback the press
    handler hands to [measureInWindow].

    JavaScript numbers are IEEE-754 doubles and are modelled by Rocq's
    primitive [float]; strings by [string]; an optional prop by [option]. *)

From Stdlib Require Import PrimFloat String List Bool Arith Lia.
Import ListNotations.

Set Warnings "-register-all".

Local Open Scope string_scope.
Local Open Scope bool_scope.

(** ** JavaScript values *)

Definition number := float.
Bind Scope float_scope with number.

(** [!!n] for a number: [0], [-0] and [NaN] are falsy. *)
Definition truthy_number (n : number) : bool :=
  negb (is_zero n || is_nan n).

(** [!!s] for a string: only the empty string is falsy. *)
Definition truthy_string (s : string) : bool :=
  negb (s =? "").

(** ** Constants, assets and theme

    [@src/CONST], the icon modules, the theme and the style sheet are imported
    by the component and are not part of this file of the repository.  The
    members of [CONST] the component reads are the fields of [CONST_t]; their
    values are left open and only their pairwise distinctness, enum by enum,
    is assumed where a property needs it. *)

Record CONST_t := {
  POLICY_TYPE_FREE : string;
  POLICY_TYPE_CORPORATE : string;
  POLICY_TYPE_TEAM : string;
  LAYOUT_WIDTH_WIDE : string;
  LAYOUT_WIDTH_NARROW : string;
  LAYOUT_WIDTH_NONE : string;
  BRICK_ROAD_INDICATOR_STATUS_ERROR : string;
  AVATAR_SIZE_DEFAULT : string;
  AVATAR_SIZE_SMALL : string;
  ICON_TYPE_WORKSPACE : string;
  MODAL_ANCHOR_ORIGIN_HORIZONTAL_RIGHT : string;
  MODAL_ANCHOR_ORIGIN_VERTICAL_TOP : string
}.

(** The three members of [CONST.POLICY.TYPE] used here are different strings. *)
Definition policy_types_distinct (C : CONST_t) : bool :=
  negb (POLICY_TYPE_FREE C =? POLICY_TYPE_CORPORATE C)
  && negb (POLICY_TYPE_FREE C =? POLICY_TYPE_TEAM C)
  && negb (POLICY_TYPE_CORPORATE C =? POLICY_TYPE_TEAM C).

(** The three members of [CONST.LAYOUT_WIDTH] are different strings. *)
Definition layout_widths_distinct (C : CONST_t) : bool :=
  negb (LAYOUT_WIDTH_NONE C =? LAYOUT_WIDTH_NARROW C)
  && negb (LAYOUT_WIDTH_NONE C =? LAYOUT_WIDTH_WIDE C)
  && negb (LAYOUT_WIDTH_NARROW C =? LAYOUT_WIDTH_WIDE C).

(** Icon assets the component imports from [Illustrations] and [Expensicons];
    different exports are different assets. *)
Inductive IconAsset :=
| HandCard
| ShieldYellow
| Mailbox
| DotIndicator.

(** The colours of [useTheme()] the component reads. *)
Record Theme := {
  danger : string;
  iconSuccessFill : string
}.

(** The entries of [useThemeStyles()] the component reads. *)
Inductive StyleKey :=
| flexRow | flexColumn | gap5 | highlightBG | br3 | pv5 | pl5
| flex1 | flex0 | gap3 | gap2 | mb3 | mr2 | mr5
| alignItemsCenter | alignSelfCenter | flexGrow1 | textStrong
| workspaceOwnerAvatarWrapper | labelStrong | textMicro | textSupporting
| workspaceTypeWrapper.

(** ** Anchor position and measurement *)

Record AnchorPosition := {
  horizontal : number;
  vertical : number
}.

Record AnchorAlignment := {
  alignment_horizontal : string;
  alignment_vertical : string
}.

(** What a measurement callback does when the host invokes it: the one state
    setter of the component, applied to a value. *)
Inductive StateUpdate :=
| setThreeDotsMenuPosition (value : AnchorPosition).

(** The callback given to [measureInWindow]: the host calls it with the
    rectangle [(x, y, width, height)] of the measured view. *)
Definition MeasureCallback := number -> number -> number -> number -> StateUpdate.

(** A request to the host: [view.measureInWindow(callback)], where [view] is
    the native view (identified by its tag) the ref points to. *)
Inductive HostRequest :=
| measureInWindow (view : nat) (callback : MeasureCallback).

(** A press handler closes over the ref object; it reads [ref.current] when it
    runs, so the current value is its argument.  It may issue a request. *)
Definition PressHandler := option nat -> option HostRequest.

Section Row.

(** Opaque data the row only passes on to its collaborators. *)
Variables (AvatarSource PopoverMenuItem ViewStyle : Type).

(** ** Style values

    A style prop is a style-sheet entry, a style object of the caller, an
    array of style values, [false] (from [cond && style]) or [undefined]. *)
Inductive Style :=
| SFalse
| SUndefined
| styles (k : StyleKey)
| SObject (o : ViewStyle)
| SArray (l : list Style).

(** [cond && style] *)
Definition and_style (cond : bool) (s : Style) : Style :=
  if cond then s else SFalse.

(** ** Owner identity *)

(** Modelled from the spec: the record the personal-details directory returns
    (OwnerIdentity: id, display name, login handle, avatar source); its type
    declaration is not in this file.  Field names are the ones the component
    reads ([avatar], [login]). *)
Record PersonalDetails := {
  accountID : number;
  displayName : string;
  login : string;
  avatar : AvatarSource
}.

(** The value of the [ownerDetails] constant: [a && b] is [a] when [a] is
    falsy, so it is [undefined], a falsy number, or the looked-up record (or
    [undefined] when the directory returns an empty array). *)
Inductive OwnerDetails :=
| OwnerUndefined
| OwnerNumber (n : number)
| OwnerRecord (d : PersonalDetails).

(** [!!ownerDetails] *)
Definition truthy_owner (o : OwnerDetails) : bool :=
  match o with
  | OwnerUndefined => false
  | OwnerNumber n => truthy_number n
  | OwnerRecord _ => true
  end.

(** One call of [PersonalDetailsUtils.getPersonalDetailsByIDs]. *)
Record DirectoryCall := {
  call_accountIDs : list number;
  call_currentUserAccountID : number
}.

(** A value together with the directory calls made to compute it. *)
Definition Traced (A : Type) : Type := A * list DirectoryCall.

(** ** Props *)

Record WorkspacesListRowProps := {
  title : string;
  ownerAccountID : option number;
  workspaceType : string;
  workspaceIcon : option AvatarSource;
  fallbackWorkspaceIcon : option AvatarSource;
  menuItems : list PopoverMenuItem;
  layoutWidth : option string;
  rowStyles : option Style;
  brickRoadIndicator : option string;
  currentUserPersonalDetails : PersonalDetails
}.

(** ** React elements *)

Record AvatarProps := {
  avatar_imageStyles : option Style;
  avatar_size : string;
  avatar_source : option AvatarSource;
  avatar_fallbackIcon : option AvatarSource;
  avatar_name : option string;
  avatar_type : option string;
  avatar_containerStyles : option Style
}.

Record IconProps := {
  icon_src : IconAsset;
  icon_fill : option string;
  icon_width : option number;
  icon_height : option number;
  icon_additionalStyles : option Style
}.

(** A prop that is not passed is [None]; for the boolean [shouldOverlay] it
    is [false]. *)
Record ThreeDotsMenuProps := {
  onIconPress : option PressHandler;
  menu_menuItems : list PopoverMenuItem;
  anchorPosition : AnchorPosition;
  anchorAlignment : option AnchorAlignment;
  iconStyles : option Style;
  shouldOverlay : bool
}.

(** The element tree a component returns.  [EFalse] is the child [false] left
    by [cond && <jsx/>]; [View]'s [ref] says whether
    [threeDotsMenuContainerRef] is attached to it.  Function components of
    this file ([BrickRoadIndicatorIcon]) occur as elements, not expanded. *)
Inductive Element :=
| EFalse
| Fragment (children : list Element)
| View (style : option Style) (ref : bool) (children : list Element)
| Avatar (props : AvatarProps)
| Text (numberOfLines : nat) (style : Style) (children : string)
| Icon (props : IconProps)
| ThreeDotsMenu (props : ThreeDotsMenuProps)
| BrickRoadIndicatorIcon (brickRoadIndicator : option string).

(** ** Collaborators *)

Variable CONST : CONST_t.
Variable theme : Theme.
Variable variables_workspaceTypeIconWidth : number.

(** [useLocalize().translate] *)
Variable translate : string -> string.

(** [PersonalDetailsUtils.getPersonalDetailsByIDs(accountIDs, currentUserAccountID)] *)
Variable getPersonalDetailsByIDs : list number -> number -> list PersonalDetails.

(** [PersonalDetailsUtils.getDisplayNameOrDefault(details)] *)
Variable getDisplayNameOrDefault : PersonalDetails -> string.

(** ** The component *)

Definition workspaceTypeIcon (workspaceType : string) : IconAsset :=
  if workspaceType =? POLICY_TYPE_FREE CONST then HandCard
  else if workspaceType =? POLICY_TYPE_CORPORATE CONST then ShieldYellow
  else if workspaceType =? POLICY_TYPE_TEAM CONST then Mailbox
  else Mailbox.

(** The function component [BrickRoadIndicatorIcon]; [None] is [null]. *)
Definition BrickRoadIndicatorIcon_render (brickRoadIndicator : option string) : option Element :=
  match brickRoadIndicator with
  | Some status =>
      if truthy_string status then
        Some (Icon {| icon_src := DotIndicator;
                      icon_fill := Some (if status =? BRICK_ROAD_INDICATOR_STATUS_ERROR CONST
                                         then danger theme else iconSuccessFill theme);
                      icon_width := None;
                      icon_height := None;
                      icon_additionalStyles := None |})
      else None
  | None => None
  end.

(** [ownerAccountID && getPersonalDetailsByIDs([ownerAccountID], currentUserPersonalDetails.accountID)[0]] *)
Definition ownerDetails (ownerAccountID : option number) (currentUser : PersonalDetails)
  : Traced OwnerDetails :=
  match ownerAccountID with
  | None => (OwnerUndefined, [])
  | Some id =>
      if truthy_number id then
        (match getPersonalDetailsByIDs [id] (accountID currentUser) with
         | d :: _ => OwnerRecord d
         | [] => OwnerUndefined
         end,
         [{| call_accountIDs := [id]; call_currentUserAccountID := accountID currentUser |}])
      else (OwnerNumber id, [])
  end.

(** The memoised label. *)
Definition userFriendlyWorkspaceType (workspaceType : string) : string :=
  if workspaceType =? POLICY_TYPE_FREE CONST then translate "workspace.type.free"
  else if workspaceType =? POLICY_TYPE_CORPORATE CONST then translate "workspace.type.control"
  else if workspaceType =? POLICY_TYPE_TEAM CONST then translate "workspace.type.collect"
  else translate "workspace.type.free".

(** The callback of the press handler. *)
Definition measureCallback : MeasureCallback :=
  fun x y width height =>
    setThreeDotsMenuPosition {| horizontal := (x + width)%float;
                                vertical := (y + height)%float |}.

(** [() => threeDotsMenuContainerRef.current?.measureInWindow(callback)] *)
Definition onIconPress_wide : PressHandler :=
  fun current =>
    match current with
    | Some view => Some (measureInWindow view measureCallback)
    | None => None
    end.

(** [cond && <jsx/>] *)
Definition and_element (cond : bool) (e : Element) : Element :=
  if cond then e else EFalse.

Definition style_or_undefined (s : option Style) : Style :=
  match s with
  | Some v => v
  | None => SUndefined
  end.

(** The fragment guarded by [!!ownerDetails]: avatar, display name and login.
    Only a record is truthy among the values [ownerDetails] can take; the
    other cases are never rendered. *)
Definition ownerContent (o : OwnerDetails) : Element :=
  match o with
  | OwnerRecord d =>
      Fragment
        [ Avatar {| avatar_imageStyles := None;
                    avatar_size := AVATAR_SIZE_SMALL CONST;
                    avatar_source := Some (avatar d);
                    avatar_fallbackIcon := None;
                    avatar_name := None;
                    avatar_type := None;
                    avatar_containerStyles := Some (styles workspaceOwnerAvatarWrapper) |};
          View (Some (styles flex1)) false
            [ Text 1 (SArray [styles labelStrong]) (getDisplayNameOrDefault d);
              Text 1 (SArray [styles textMicro; styles textSupporting]) (login d) ] ]
  | _ => EFalse
  end.

(** [WorkspacesListRow(props)], given the current value of the
    [threeDotsMenuPosition] state; [None] is [null]. *)
Definition WorkspacesListRow (props : WorkspacesListRowProps)
    (threeDotsMenuPosition : AnchorPosition) : Traced (option Element) :=
  let layoutWidth :=
    match layoutWidth props with
    | Some w => w
    | None => LAYOUT_WIDTH_NONE CONST
    end in
  let '(owner, calls) := ownerDetails (ownerAccountID props) (currentUserPersonalDetails props) in
  let label := userFriendlyWorkspaceType (workspaceType props) in
  if layoutWidth =? LAYOUT_WIDTH_NONE CONST then (None, calls)
  else
    let isWide := layoutWidth =? LAYOUT_WIDTH_WIDE CONST in
    let isNarrow := layoutWidth =? LAYOUT_WIDTH_NARROW CONST in
    (Some
       (View
          (Some (SArray [ if isWide then styles flexRow else styles flexColumn;
                          and_style isWide (styles gap5);
                          styles highlightBG; styles br3; styles pv5; styles pl5;
                          style_or_undefined (rowStyles props) ]))
          false
          [ View
              (Some (SArray [ styles flexRow; and_style isWide (styles flex1); styles gap3;
                              and_style isNarrow (SArray [styles mb3; styles mr2]);
                              styles alignItemsCenter ]))
              false
              [ Avatar {| avatar_imageStyles := Some (SArray [styles alignSelfCenter]);
                          avatar_size := AVATAR_SIZE_DEFAULT CONST;
                          avatar_source := workspaceIcon props;
                          avatar_fallbackIcon := fallbackWorkspaceIcon props;
                          avatar_name := Some (title props);
                          avatar_type := Some (ICON_TYPE_WORKSPACE CONST);
                          avatar_containerStyles := None |};
                Text 1 (SArray [styles flex1; styles flexGrow1; styles textStrong]) (title props);
                and_element isNarrow
                  (Fragment
                     [ BrickRoadIndicatorIcon (brickRoadIndicator props);
                       ThreeDotsMenu {| onIconPress := None;
                                        menu_menuItems := menuItems props;
                                        anchorPosition := {| horizontal := 0%float; vertical := 0%float |};
                                        anchorAlignment := None;
                                        iconStyles := None;
                                        shouldOverlay := false |} ]) ];
            View
              (Some (SArray [ styles flexRow; and_style isWide (styles flex1); styles gap2;
                              and_style isNarrow (styles mr5); styles alignItemsCenter ]))
              false
              [ and_element (truthy_owner owner) (ownerContent owner) ];
            View
              (Some (SArray [ styles flexRow; and_style isWide (styles flex1); styles gap2;
                              and_style isNarrow (styles mr5); styles alignItemsCenter ]))
              false
              [ Icon {| icon_src := workspaceTypeIcon (workspaceType props);
                        icon_fill := None;
                        icon_width := Some variables_workspaceTypeIconWidth;
                        icon_height := Some variables_workspaceTypeIconWidth;
                        icon_additionalStyles := Some (styles workspaceTypeWrapper) |};
                View (Some (styles flex1)) false
                  [ Text 1 (SArray [styles labelStrong]) label;
                    Text 1 (SArray [styles textMicro; styles textSupporting])
                      (translate "workspace.common.plan") ] ];
            and_element isWide
              (Fragment
                 [ View
                     (Some (SArray [ styles flexRow; styles flex0; styles gap2;
                                     and_style isNarrow (styles mr5); styles alignItemsCenter ]))
                     false
                     [ BrickRoadIndicatorIcon (brickRoadIndicator props) ];
                   View None true
                     [ ThreeDotsMenu
                         {| onIconPress := Some onIconPress_wide;
                            menu_menuItems := menuItems props;
                            anchorPosition := threeDotsMenuPosition;
                            anchorAlignment :=
                              Some {| alignment_horizontal := MODAL_ANCHOR_ORIGIN_HORIZONTAL_RIGHT CONST;
                                      alignment_vertical := MODAL_ANCHOR_ORIGIN_VERTICAL_TOP CONST |};
                            iconStyles := Some (SArray [styles mr2]);
                            shouldOverlay := true |} ] ]) ]),
     calls).

(** The output of the TypeIconMapper for a workspace type. *)
Definition typeIconAndLabel (workspaceType : string) : IconAsset * string :=
  (workspaceTypeIcon workspaceType, userFriendlyWorkspaceType workspaceType).

(** The same props with another [ownerAccountID]. *)
Definition withOwnerAccountID (props : WorkspacesListRowProps) (owner : option number)
  : WorkspacesListRowProps :=
  {| title := title props;
     ownerAccountID := owner;
     workspaceType := workspaceType props;
     workspaceIcon := workspaceIcon props;
     fallbackWorkspaceIcon := fallbackWorkspaceIcon props;
     menuItems := menuItems props;
     layoutWidth := layoutWidth props;
     rowStyles := rowStyles props;
     brickRoadIndicator := brickRoadIndicator props;
     currentUserPersonalDetails := currentUserPersonalDetails props |}.

(** ** Reading an element tree *)

Definition childrenOf (e : Element) : list Element :=
  match e with
  | Fragment children => children
  | View _ _ children => children
  | _ => []
  end.

(** The node itself and every node below it, in document order. *)
Fixpoint descendants (e : Element) : list Element :=
  e :: match e with
       | Fragment children => flat_map descendants children
       | View _ _ children => flat_map descendants children
       | _ => []
       end.

(** The props of the three-dots menus of a tree. *)
Definition threeDotsMenus (e : Element) : list ThreeDotsMenuProps :=
  flat_map (fun d => match d with ThreeDotsMenu p => [p] | _ => [] end) (descendants e).

Definition isThreeDotsMenu (e : Element) : bool :=
  match e with ThreeDotsMenu _ => true | _ => false end.

Definition isBrickRoadIndicatorIcon (e : Element) : bool :=
  match e with BrickRoadIndicatorIcon _ => true | _ => false end.

(** Is the ref attached to a view of the tree? *)
Definition hasRef (e : Element) : bool :=
  existsb (fun d => match d with View _ true _ => true | _ => false end) (descendants e).

(** The sections of a rendered row: the children of its root view. *)
Definition sections (row : Element) : list Element :=
  match row with
  | View _ _ children => children
  | _ => []
  end.

(** The row's sections by position: identity, owner, type, and what follows. *)
Definition identitySection (row : Element) : option Element := nth_error (sections row) 0.
Definition ownerSection (row : Element) : option Element := nth_error (sections row) 1.
Definition typeSection (row : Element) : option Element := nth_error (sections row) 2.
Definition trailingSections (row : Element) : list Element := skipn 3 (sections row).

(** Does the status indicator or the actions trigger occur in these elements? *)
Definition hasControls (l : list Element) : bool :=
  existsb (fun d => isBrickRoadIndicatorIcon d || isThreeDotsMenu d) (flat_map descendants l).

Definition controlsInline (row : Element) : bool :=
  match identitySection row with
  | Some s => hasControls [s]
  | None => false
  end.

Definition controlsTrailing (row : Element) : bool :=
  hasControls (trailingSections row).

(** ** The mounted row as a state machine

    A mounted instance holds the hook state of the component: the value of
    [threeDotsMenuPosition], [threeDotsMenuContainerRef.current], the tree of
    the last render, and the measurements the host has been asked for and has
    not answered yet. *)
Record Instance := {
  threeDotsMenuPosition : AnchorPosition;
  threeDotsMenuContainerRef : option nat;
  committed : option Element;
  inFlight : list HostRequest
}.

(** [useState({horizontal: 0, vertical: 0})], [useRef(null)]; nothing rendered yet. *)
Definition mount : Instance :=
  {| threeDotsMenuPosition := {| horizontal := 0%float; vertical := 0%float |};
     threeDotsMenuContainerRef := None;
     committed := None;
     inFlight := [] |}.

(** What happens to a mounted row. *)
Inductive Event :=
| Render (props : WorkspacesListRowProps) (view : nat)
| IconPress
| MeasureDone (x y width height : number)
| MeasureDropped.

(** Modelled from the spec: the [ThreeDotsMenu] component is not in this file;
    when the user activates its menu-opening control it calls the
    [onIconPress] prop if one was given (AnchorTracker, state Measuring). *)
Definition ThreeDotsMenu_press (props : ThreeDotsMenuProps) (current : option nat)
  : option HostRequest :=
  match onIconPress props with
  | Some handler => handler current
  | None => None
  end.

Definition applyUpdate (u : StateUpdate) (s : Instance) : Instance :=
  match u with
  | setThreeDotsMenuPosition value =>
      {| threeDotsMenuPosition := value;
         threeDotsMenuContainerRef := threeDotsMenuContainerRef s;
         committed := committed s;
         inFlight := inFlight s |}
  end.

Definition withInFlight (s : Instance) (l : list HostRequest) : Instance :=
  {| threeDotsMenuPosition := threeDotsMenuPosition s;
     threeDotsMenuContainerRef := threeDotsMenuContainerRef s;
     committed := committed s;
     inFlight := l |}.

(** One event.
    - [Render props view]: the component function runs with the current state
      and its result is committed; the ref points to the container view
      (native tag [view]) if that view is in the result, and is null otherwise.
    - [IconPress]: the user presses the icon of the rendered menu.
    - [MeasureDone x y width height]: the host answers the oldest measurement
      by calling its callback.
    - [MeasureDropped]: the host gives up the oldest measurement; its callback
      is never called. *)
Definition step (s : Instance) (e : Event) : Instance :=
  match e with
  | Render props view =>
      let out := fst (WorkspacesListRow props (threeDotsMenuPosition s)) in
      {| threeDotsMenuPosition := threeDotsMenuPosition s;
         threeDotsMenuContainerRef :=
           match out with
           | Some tree => if hasRef tree then Some view else None
           | None => None
           end;
         committed := out;
         inFlight := inFlight s |}
  | IconPress =>
      match committed s with
      | Some tree =>
          match threeDotsMenus tree with
          | menu :: _ =>
              match ThreeDotsMenu_press menu (threeDotsMenuContainerRef s) with
              | Some request => withInFlight s (inFlight s ++ [request])
              | None => s
              end
          | [] => s
          end
      | None => s
      end
  | MeasureDone x y width height =>
      match inFlight s with
      | measureInWindow _ callback :: rest =>
          applyUpdate (callback x y width height) (withInFlight s rest)
      | [] => s
      end
  | MeasureDropped => withInFlight s (tl (inFlight s))
  end.

Definition run (s : Instance) (events : list Event) : Instance :=
  fold_left step events s.

(** The user opens the menu and the host reports the rectangle. *)
Definition triggerAndMeasure (s : Instance) (x y width height : number) : Instance :=
  step (step s IconPress) (MeasureDone x y width height).


(** The only request the component ever makes: a measurement whose callback
    is [measureCallback]. *)
Definition isMeasurement (r : HostRequest) : Prop :=
  exists view, r = measureInWindow view measureCallback.

(** The only press handlers the component ever passes to a menu. *)
Definition handlerOfRow (m : ThreeDotsMenuProps) : Prop :=
  onIconPress m = None \/ onIconPress m = Some onIconPress_wide.

(** What holds of every instance between events. *)
Definition wellFormed (s : Instance) : Prop :=
  Forall isMeasurement (inFlight s)
  /\ forall tree, committed s = Some tree -> Forall handlerOfRow (threeDotsMenus tree).


(** The anchor a completed measurement of [(x, y, width, height)] gives. *)
Definition bottomRight (x y width height : number) : AnchorPosition :=
  {| horizontal := (x + width)%float; vertical := (y + height)%float |}.

(** The same props with another [rowStyles]. *)
Definition withRowStyles (props : WorkspacesListRowProps) (rowStyles : option Style)
  : WorkspacesListRowProps :=
  {| title := title props;
     ownerAccountID := ownerAccountID props;
     workspaceType := workspaceType props;
     workspaceIcon := workspaceIcon props;
     fallbackWorkspaceIcon := fallbackWorkspaceIcon props;
     menuItems := menuItems props;
     layoutWidth := layoutWidth props;
     rowStyles := rowStyles;
     brickRoadIndicator := brickRoadIndicator props;
     currentUserPersonalDetails := currentUserPersonalDetails props |}.

(** The [brickRoadIndicator] props of the indicator elements of a tree. *)
Definition brickRoadIndicators (e : Element) : list (option string) :=
  flat_map (fun d => match d with BrickRoadIndicatorIcon b => [b] | _ => [] end)
    (descendants e).

(** How often the icon is pressed in a list of events. *)
Definition presses (events : list Event) : nat :=
  length (filter (fun e => match e with IconPress => true | _ => false end) events).

(** * Properties *)

(** ** Comparing a prop with the members of an enum *)

Lemma eqb_false_sym (a b : string) : (a =? b) = false -> (b =? a) = false.
Proof. intro H. rewrite String.eqb_sym. exact H. Qed.

Lemma policy_types_distinct_inv :
  policy_types_distinct CONST = true ->
  (POLICY_TYPE_FREE CONST =? POLICY_TYPE_CORPORATE CONST) = false
  /\ (POLICY_TYPE_FREE CONST =? POLICY_TYPE_TEAM CONST) = false
  /\ (POLICY_TYPE_CORPORATE CONST =? POLICY_TYPE_TEAM CONST) = false.
Proof.
  unfold policy_types_distinct. intro H.
  apply andb_prop in H. destruct H as [H H3].
  apply andb_prop in H. destruct H as [H1 H2].
  apply negb_true_iff in H1, H2, H3. auto.
Qed.

Lemma layout_widths_distinct_inv :
  layout_widths_distinct CONST = true ->
  (LAYOUT_WIDTH_NONE CONST =? LAYOUT_WIDTH_NARROW CONST) = false
  /\ (LAYOUT_WIDTH_NONE CONST =? LAYOUT_WIDTH_WIDE CONST) = false
  /\ (LAYOUT_WIDTH_NARROW CONST =? LAYOUT_WIDTH_WIDE CONST) = false.
Proof.
  unfold layout_widths_distinct. intro H.
  apply andb_prop in H. destruct H as [H H3].
  apply andb_prop in H. destruct H as [H1 H2].
  apply negb_true_iff in H1, H2, H3. auto.
Qed.

(** ** TypeIconMapper *)

Lemma mapper_FREE :
  workspaceTypeIcon (POLICY_TYPE_FREE CONST) = HandCard
  /\ userFriendlyWorkspaceType (POLICY_TYPE_FREE CONST) = translate "workspace.type.free".
Proof.
  unfold workspaceTypeIcon, userFriendlyWorkspaceType.
  rewrite String.eqb_refl. split; reflexivity.
Qed.

Lemma mapper_CORPORATE :
  policy_types_distinct CONST = true ->
  workspaceTypeIcon (POLICY_TYPE_CORPORATE CONST) = ShieldYellow
  /\ userFriendlyWorkspaceType (POLICY_TYPE_CORPORATE CONST)
     = translate "workspace.type.control".
Proof.
  intro Hd. destruct (policy_types_distinct_inv Hd) as (Hfc & _ & _).
  unfold workspaceTypeIcon, userFriendlyWorkspaceType.
  rewrite (eqb_false_sym _ _ Hfc), String.eqb_refl. split; reflexivity.
Qed.

Lemma mapper_TEAM :
  policy_types_distinct CONST = true ->
  workspaceTypeIcon (POLICY_TYPE_TEAM CONST) = Mailbox
  /\ userFriendlyWorkspaceType (POLICY_TYPE_TEAM CONST)
     = translate "workspace.type.collect".
Proof.
  intro Hd. destruct (policy_types_distinct_inv Hd) as (_ & Hft & Hct).
  unfold workspaceTypeIcon, userFriendlyWorkspaceType.
  rewrite (eqb_false_sym _ _ Hft), (eqb_false_sym _ _ Hct), String.eqb_refl.
  split; reflexivity.
Qed.

(** C4: FREE maps to the hand-card icon and the translation of
    'workspace.type.free', CORPORATE to the shield icon and the translation of
    'workspace.type.control', TEAM to the mailbox icon and the translation of
    'workspace.type.collect'; the three icon/label pairs are pairwise
    different. *)
Theorem workspaceType_known_pairs :
  policy_types_distinct CONST = true ->
  typeIconAndLabel (POLICY_TYPE_FREE CONST) = (HandCard, translate "workspace.type.free")
  /\ typeIconAndLabel (POLICY_TYPE_CORPORATE CONST)
     = (ShieldYellow, translate "workspace.type.control")
  /\ typeIconAndLabel (POLICY_TYPE_TEAM CONST) = (Mailbox, translate "workspace.type.collect")
  /\ typeIconAndLabel (POLICY_TYPE_FREE CONST) <> typeIconAndLabel (POLICY_TYPE_CORPORATE CONST)
  /\ typeIconAndLabel (POLICY_TYPE_FREE CONST) <> typeIconAndLabel (POLICY_TYPE_TEAM CONST)
  /\ typeIconAndLabel (POLICY_TYPE_CORPORATE CONST) <> typeIconAndLabel (POLICY_TYPE_TEAM CONST).
Proof.
  intros Hd. unfold typeIconAndLabel.
  destruct mapper_FREE as [Fi Fl].
  destruct (mapper_CORPORATE Hd) as [Ci Cl].
  destruct (mapper_TEAM Hd) as [Ti Tl].
  rewrite Fi, Fl, Ci, Cl, Ti, Tl.
  repeat split; discriminate.
Qed.

(** C2: a workspace type that is none of FREE, CORPORATE and TEAM gets the
    mailbox icon, which is TEAM's, and the translation of
    'workspace.type.free', which is FREE's label. *)
Theorem workspaceType_default_asymmetric (workspaceType : string) :
  policy_types_distinct CONST = true ->
  workspaceType <> POLICY_TYPE_FREE CONST ->
  workspaceType <> POLICY_TYPE_CORPORATE CONST ->
  workspaceType <> POLICY_TYPE_TEAM CONST ->
  workspaceTypeIcon workspaceType = Mailbox
  /\ workspaceTypeIcon workspaceType = workspaceTypeIcon (POLICY_TYPE_TEAM CONST)
  /\ userFriendlyWorkspaceType workspaceType = translate "workspace.type.free"
  /\ userFriendlyWorkspaceType workspaceType
     = userFriendlyWorkspaceType (POLICY_TYPE_FREE CONST).
Proof.
  intros Hd Hf Hc Ht.
  destruct mapper_FREE as [_ Fl].
  destruct (mapper_TEAM Hd) as [Ti _].
  rewrite Fl, Ti.
  apply String.eqb_neq in Hf, Hc, Ht.
  unfold workspaceTypeIcon, userFriendlyWorkspaceType.
  rewrite Hf, Hc, Ht. auto.
Qed.

(** ** RowComposer *)

(** The component function splits into the directory calls of [ownerDetails]
    and the tree. *)
Lemma WorkspacesListRow_calls props pos :
  snd (WorkspacesListRow props pos)
  = snd (ownerDetails (ownerAccountID props) (currentUserPersonalDetails props)).
Proof.
  unfold WorkspacesListRow.
  destruct (ownerDetails (ownerAccountID props) (currentUserPersonalDetails props))
    as [owner calls].
  destruct (_ =? LAYOUT_WIDTH_NONE CONST); reflexivity.
Qed.

(** C1: when [layoutWidth] is NONE, given or by default, the component returns
    null, whatever the other props and the state are. *)
Theorem WorkspacesListRow_unresolved_null props pos :
  layoutWidth props = None \/ layoutWidth props = Some (LAYOUT_WIDTH_NONE CONST) ->
  fst (WorkspacesListRow props pos) = None.
Proof.
  intros H. unfold WorkspacesListRow.
  destruct (ownerDetails (ownerAccountID props) (currentUserPersonalDetails props))
    as [owner calls].
  destruct H as [H | H]; rewrite H, String.eqb_refl; reflexivity.
Qed.

(** The value of the [layoutWidth] parameter after its default is applied. *)
Lemma layout_flags_NARROW :
  layout_widths_distinct CONST = true ->
  (LAYOUT_WIDTH_NARROW CONST =? LAYOUT_WIDTH_NONE CONST) = false
  /\ (LAYOUT_WIDTH_NARROW CONST =? LAYOUT_WIDTH_WIDE CONST) = false.
Proof.
  intro Hd. destruct (layout_widths_distinct_inv Hd) as (Hnn & _ & Hnw).
  split; [apply eqb_false_sym|]; assumption.
Qed.

Lemma layout_flags_WIDE :
  layout_widths_distinct CONST = true ->
  (LAYOUT_WIDTH_WIDE CONST =? LAYOUT_WIDTH_NONE CONST) = false
  /\ (LAYOUT_WIDTH_WIDE CONST =? LAYOUT_WIDTH_NARROW CONST) = false.
Proof.
  intro Hd. destruct (layout_widths_distinct_inv Hd) as (_ & Hnw & Hrw).
  split; apply eqb_false_sym; assumption.
Qed.

(** Unfold the component at a given layout, with the three comparisons of
    [layoutWidth] decided. *)
Ltac render_narrow Hd H :=
  let E0 := fresh in let E1 := fresh in
  destruct (layout_flags_NARROW Hd) as [E0 E1];
  unfold WorkspacesListRow; rewrite H;
  destruct (ownerDetails _ _) as [?owner ?calls];
  rewrite E0, E1, String.eqb_refl.

Ltac render_wide Hd H :=
  let E0 := fresh in let E1 := fresh in
  destruct (layout_flags_WIDE Hd) as [E0 E1];
  unfold WorkspacesListRow; rewrite H;
  destruct (ownerDetails _ _) as [?owner ?calls];
  rewrite E0, E1, String.eqb_refl.

(** C6: in the NARROW layout the status indicator and the actions trigger are
    children of the identity section and nothing follows the type section; in
    the WIDE layout the identity section holds neither and each of them has a
    trailing section of its own; no row has them in both places. *)
Theorem layout_controls_placement props pos :
  layout_widths_distinct CONST = true ->
  (layoutWidth props = Some (LAYOUT_WIDTH_NARROW CONST) ->
   exists row identity menu,
     fst (WorkspacesListRow props pos) = Some row
     /\ identitySection row = Some identity
     /\ nth_error (childrenOf identity) 2
        = Some (Fragment [BrickRoadIndicatorIcon (brickRoadIndicator props);
                          ThreeDotsMenu menu])
     /\ trailingSections row = [EFalse]
     /\ controlsInline row = true /\ controlsTrailing row = false)
  /\ (layoutWidth props = Some (LAYOUT_WIDTH_WIDE CONST) ->
      exists row identity style menu,
        fst (WorkspacesListRow props pos) = Some row
        /\ identitySection row = Some identity
        /\ nth_error (childrenOf identity) 2 = Some EFalse
        /\ trailingSections row
           = [Fragment [View style false [BrickRoadIndicatorIcon (brickRoadIndicator props)];
                        View None true [ThreeDotsMenu menu]]]
        /\ controlsInline row = false /\ controlsTrailing row = true)
  /\ (forall row, fst (WorkspacesListRow props pos) = Some row ->
      controlsInline row && controlsTrailing row = false).
Proof.
  intro Hd. split; [|split].
  - intro H. render_narrow Hd H.
    do 3 eexists. cbn. repeat split; reflexivity.
  - intro H. render_wide Hd H.
    do 4 eexists. cbn. repeat split; reflexivity.
  - intros row. unfold WorkspacesListRow.
    destruct (ownerDetails _ _) as [owner calls].
    destruct (_ =? LAYOUT_WIDTH_NONE CONST); [discriminate|].
    destruct (_ =? LAYOUT_WIDTH_WIDE CONST) eqn:Ew;
      destruct (_ =? LAYOUT_WIDTH_NARROW CONST) eqn:En;
      cbn; intro H; inversion H; subst row; clear H; try reflexivity.
    apply String.eqb_eq in Ew, En.
    destruct (layout_widths_distinct_inv Hd) as (_ & _ & Hrw).
    rewrite <- Ew, <- En, String.eqb_refl in Hrw. discriminate.
Qed.

(** The type section of every rendered row shows what the mapper gives for
    the [workspaceType] prop, above the constant caption. *)
Lemma typeSection_rendered props pos row :
  fst (WorkspacesListRow props pos) = Some row ->
  exists style,
    typeSection row
    = Some (View style false
              [ Icon {| icon_src := workspaceTypeIcon (workspaceType props);
                        icon_fill := None;
                        icon_width := Some variables_workspaceTypeIconWidth;
                        icon_height := Some variables_workspaceTypeIconWidth;
                        icon_additionalStyles := Some (styles workspaceTypeWrapper) |};
                View (Some (styles flex1)) false
                  [ Text 1 (SArray [styles labelStrong])
                      (userFriendlyWorkspaceType (workspaceType props));
                    Text 1 (SArray [styles textMicro; styles textSupporting])
                      (translate "workspace.common.plan") ] ]).
Proof.
  unfold WorkspacesListRow.
  destruct (ownerDetails _ _) as [owner calls].
  destruct (_ =? LAYOUT_WIDTH_NONE CONST); [discriminate|].
  cbn. intro H. inversion H; subst row; clear H.
  eexists. reflexivity.
Qed.

(** Without a status the indicator component renders nothing. *)
Lemma BrickRoadIndicatorIcon_absent : BrickRoadIndicatorIcon_render None = None.
Proof. reflexivity. Qed.

(** ** OwnerResolver *)

Lemma ownerDetails_absent currentUser :
  ownerDetails None currentUser = (OwnerUndefined, []).
Proof. reflexivity. Qed.

(** A falsy account ID short-circuits [&&]: no lookup, and the number itself
    is the value. *)
Lemma ownerDetails_falsy id currentUser :
  truthy_number id = false ->
  ownerDetails (Some id) currentUser = (OwnerNumber id, []).
Proof. intro H. unfold ownerDetails. rewrite H. reflexivity. Qed.

(** A truthy account ID is looked up, once, with the viewer's account ID. *)
Lemma ownerDetails_truthy id currentUser :
  truthy_number id = true ->
  snd (ownerDetails (Some id) currentUser)
  = [{| call_accountIDs := [id]; call_currentUserAccountID := accountID currentUser |}].
Proof. intro H. unfold ownerDetails. rewrite H. reflexivity. Qed.

(** With an [ownerDetails] value that is falsy, a row that is rendered keeps
    the owner section's container as the second of its four children, with
    the style array of the source and [false] as its only child. *)
Lemma falsy_owner_container props pos owner calls width :
  ownerDetails (ownerAccountID props) (currentUserPersonalDetails props) = (owner, calls) ->
  truthy_owner owner = false ->
  layoutWidth props = Some width ->
  width <> LAYOUT_WIDTH_NONE CONST ->
  exists row,
    fst (WorkspacesListRow props pos) = Some row
    /\ length (sections row) = 4
    /\ ownerSection row
       = Some (View
                 (Some (SArray [ styles flexRow;
                                 and_style (width =? LAYOUT_WIDTH_WIDE CONST) (styles flex1);
                                 styles gap2;
                                 and_style (width =? LAYOUT_WIDTH_NARROW CONST) (styles mr5);
                                 styles alignItemsCenter ]))
                 false [EFalse]).
Proof.
  intros Ho Hf Hw Hn. apply String.eqb_neq in Hn.
  unfold WorkspacesListRow. rewrite Ho, Hw, Hn, Hf.
  eexists. cbn. repeat split; reflexivity.
Qed.

(** C5, amended: with [ownerAccountID] absent the directory is not called,
    and whenever the row is rendered ([layoutWidth] given and not NONE) the
    owner section holds nothing (no avatar, no name, no login, no placeholder
    element): its container view is still the second of the four children of
    the row, with its style array (flexRow, flex1 when WIDE, gap2, mr5 when
    NARROW, alignItemsCenter) and [false] as its only child. *)
Theorem owner_absent_empty_container props pos :
  ownerAccountID props = None ->
  snd (WorkspacesListRow props pos) = []
  /\ forall width,
       layoutWidth props = Some width ->
       width <> LAYOUT_WIDTH_NONE CONST ->
       exists row,
         fst (WorkspacesListRow props pos) = Some row
         /\ length (sections row) = 4
         /\ ownerSection row
            = Some (View
                      (Some (SArray
                               [ styles flexRow;
                                 and_style (width =? LAYOUT_WIDTH_WIDE CONST) (styles flex1);
                                 styles gap2;
                                 and_style (width =? LAYOUT_WIDTH_NARROW CONST) (styles mr5);
                                 styles alignItemsCenter ]))
                      false [EFalse]).
Proof.
  intro H. split.
  - rewrite WorkspacesListRow_calls, H. reflexivity.
  - intros width Hw Hn.
    apply (falsy_owner_container props pos OwnerUndefined []); auto.
    rewrite H. reflexivity.
Qed.

(** C9, amended: with [ownerAccountID = 0] the component returns what it
    returns with [ownerAccountID] absent, and the directory is not called:
    [0 && ...] is [0], which is falsy.  Whenever the row is rendered
    ([layoutWidth] given and not NONE) the owner section holds nothing, but
    its container view is still the second of the four children of the row,
    with its style array (flexRow, flex1 when WIDE, gap2, mr5 when NARROW,
    alignItemsCenter) and [false] as its only child. *)
Theorem owner_zero_like_absent props pos :
  ownerAccountID props = Some 0%float ->
  WorkspacesListRow props pos = WorkspacesListRow (withOwnerAccountID props None) pos
  /\ snd (WorkspacesListRow props pos) = []
  /\ ownerDetails (ownerAccountID props) (currentUserPersonalDetails props)
     = (OwnerNumber 0%float, [])
  /\ forall width,
       layoutWidth props = Some width ->
       width <> LAYOUT_WIDTH_NONE CONST ->
       exists row,
         fst (WorkspacesListRow props pos) = Some row
         /\ length (sections row) = 4
         /\ ownerSection row
            = Some (View
                      (Some (SArray
                               [ styles flexRow;
                                 and_style (width =? LAYOUT_WIDTH_WIDE CONST) (styles flex1);
                                 styles gap2;
                                 and_style (width =? LAYOUT_WIDTH_NARROW CONST) (styles mr5);
                                 styles alignItemsCenter ]))
                      false [EFalse]).
Proof.
  intro H.
  assert (Hz : ownerDetails (ownerAccountID props) (currentUserPersonalDetails props)
               = (OwnerNumber 0%float, [])).
  { rewrite H. apply ownerDetails_falsy. reflexivity. }
  split; [|split; [|split]].
  - unfold WorkspacesListRow. rewrite Hz.
    cbn [withOwnerAccountID ownerAccountID layoutWidth currentUserPersonalDetails
         workspaceType title workspaceIcon fallbackWorkspaceIcon menuItems rowStyles
         brickRoadIndicator].
    rewrite ownerDetails_absent.
    destruct (_ =? LAYOUT_WIDTH_NONE CONST); reflexivity.
  - rewrite WorkspacesListRow_calls, Hz. reflexivity.
  - exact Hz.
  - intros width Hw Hn.
    apply (falsy_owner_container props pos (OwnerNumber 0%float) []); auto.
Qed.

(** ** Menus of a rendered row *)

Ltac owner_cases :=
  destruct (ownerDetails _ _) as [[|?n|?d] ?calls].

(** Every menu of a rendered row has no handler or the measuring handler. *)
Lemma rendered_handlers props pos tree :
  fst (WorkspacesListRow props pos) = Some tree ->
  Forall handlerOfRow (threeDotsMenus tree).
Proof.
  unfold WorkspacesListRow. owner_cases;
    (destruct (_ =? LAYOUT_WIDTH_NONE CONST); [discriminate|]);
    destruct (_ =? LAYOUT_WIDTH_WIDE CONST);
    destruct (_ =? LAYOUT_WIDTH_NARROW CONST);
    cbn; try destruct (truthy_number n); cbn;
    intro H; inversion H; subst tree; clear H;
    repeat (apply Forall_cons; [unfold handlerOfRow; cbn; auto|]);
    apply Forall_nil.
Qed.

(** A menu with a press handler is rendered only in the WIDE layout. *)
Lemma handler_only_wide props pos tree m :
  fst (WorkspacesListRow props pos) = Some tree ->
  In m (threeDotsMenus tree) ->
  onIconPress m <> None ->
  layoutWidth props = Some (LAYOUT_WIDTH_WIDE CONST).
Proof.
  unfold WorkspacesListRow.
  destruct (layoutWidth props) as [w|].
  2: { destruct (ownerDetails _ _). rewrite String.eqb_refl. discriminate. }
  owner_cases;
    (destruct (_ =? LAYOUT_WIDTH_NONE CONST); [discriminate|]);
    destruct (w =? LAYOUT_WIDTH_WIDE CONST) eqn:Ew;
    try (apply String.eqb_eq in Ew; subst w; reflexivity);
    destruct (_ =? LAYOUT_WIDTH_NARROW CONST);
    cbn; try destruct (truthy_number n); cbn;
    intro H; inversion H; subst tree; clear H; cbn;
    intros Hin Hne; repeat (destruct Hin as [Hin | Hin]; [subst m; cbn in Hne; congruence|]);
    contradiction.
Qed.


(** The one menu of a WIDE row: anchored at the state, with the measuring
    handler, inside the view the ref is attached to. *)
Lemma wide_menu props pos :
  layout_widths_distinct CONST = true ->
  layoutWidth props = Some (LAYOUT_WIDTH_WIDE CONST) ->
  exists row menu,
    fst (WorkspacesListRow props pos) = Some row
    /\ threeDotsMenus row = [menu]
    /\ anchorPosition menu = pos
    /\ onIconPress menu = Some onIconPress_wide
    /\ hasRef row = true.
Proof.
  intros Hd H. render_wide Hd H.
  destruct owner as [|n|d]; cbn; try destruct (truthy_number n); cbn;
    do 2 eexists; repeat split; reflexivity.
Qed.

(** ** AnchorTracker *)

Lemma wellFormed_mount : wellFormed mount.
Proof. split; [constructor | discriminate]. Qed.

(** A press changes nothing, or adds one measurement with [measureCallback]. *)
Lemma press_cases s :
  wellFormed s ->
  step s IconPress = s
  \/ exists view, step s IconPress
                  = withInFlight s (inFlight s ++ [measureInWindow view measureCallback]).
Proof.
  intros [_ Hc]. cbn.
  destruct (committed s) as [tree|] eqn:Et; [|now left].
  specialize (Hc tree eq_refl).
  destruct (threeDotsMenus tree) as [|menu rest]; [now left|].
  inversion Hc as [|? ? Hm _]; subst.
  unfold ThreeDotsMenu_press.
  destruct Hm as [Hm | Hm]; rewrite Hm; [now left|].
  unfold onIconPress_wide.
  destruct (threeDotsMenuContainerRef s) as [view|]; [|now left].
  right. exists view. reflexivity.
Qed.

Lemma step_wellFormed s e : wellFormed s -> wellFormed (step s e).
Proof.
  intros Hs. destruct e as [props view| |x y w h|].
  - destruct Hs as [Hq _]. split; [exact Hq|].
    cbn. intros tree Ht. eapply rendered_handlers. exact Ht.
  - destruct (press_cases s Hs) as [E | [view E]]; rewrite E; [exact Hs|].
    destruct Hs as [Hq Hc]. split; [|exact Hc].
    cbn. apply Forall_app. split; [exact Hq|].
    constructor; [|constructor]. exists view. reflexivity.
  - destruct Hs as [Hq Hc]. cbn.
    destruct (inFlight s) as [|[view callback] rest] eqn:Eq; [split; [rewrite Eq|]; assumption|].
    inversion Hq as [|? ? [v Hv] Hrest]; subst.
    injection Hv as _ Hcb. subst callback.
    split; [exact Hrest | exact Hc].
  - destruct Hs as [Hq Hc]. split; [|exact Hc].
    cbn. destruct (inFlight s); [constructor|].
    inversion Hq; assumption.
Qed.

Lemma run_wellFormed events : forall s, wellFormed s -> wellFormed (run s events).
Proof.
  induction events as [|e events IH]; intros s Hs; [exact Hs|].
  cbn. apply IH. apply step_wellFormed. exact Hs.
Qed.

(** A press never writes the anchor. *)
Lemma press_position s :
  threeDotsMenuPosition (step s IconPress) = threeDotsMenuPosition s.
Proof.
  cbn. destruct (committed s); [|reflexivity].
  destruct (threeDotsMenus _); [reflexivity|].
  destruct (ThreeDotsMenu_press _ _); reflexivity.
Qed.

(** A completed measurement writes the bottom-right corner of the rectangle
    when a measurement was in flight, and nothing otherwise. *)
Lemma measureDone_position s x y width height :
  wellFormed s ->
  threeDotsMenuPosition (step s (MeasureDone x y width height))
  = match inFlight s with
    | [] => threeDotsMenuPosition s
    | _ :: _ => bottomRight x y width height
    end.
Proof.
  intros [Hq _]. cbn.
  destruct (inFlight s) as [|[view callback] rest]; [reflexivity|].
  inversion Hq as [|? ? [v Hv] _]; subst.
  injection Hv as _ Hcb. subst callback. reflexivity.
Qed.

Lemma measureDone_idle s x y width height :
  inFlight s = [] -> step s (MeasureDone x y width height) = s.
Proof. intro H. cbn. rewrite H. reflexivity. Qed.

(** C3: whenever the host completes a measurement of a mounted row with the
    rectangle (x, y, width, height), the anchor becomes
    (x + width, y + height); the rectangle (10, 20, 30, 40) gives (40, 60). *)
Theorem measurement_sets_bottom_right events x y width height :
  inFlight (run mount events) <> [] ->
  threeDotsMenuPosition (step (run mount events) (MeasureDone x y width height))
  = {| horizontal := (x + width)%float; vertical := (y + height)%float |}
  /\ (measureCallback 10 20 30 40)%float
     = setThreeDotsMenuPosition {| horizontal := 40; vertical := 60 |}.
Proof.
  intro Hne. split; [|reflexivity].
  rewrite measureDone_position by (apply run_wellFormed, wellFormed_mount).
  destruct (inFlight (run mount events)); [contradiction|reflexivity].
Qed.

(** C7: the anchor of a freshly mounted row is the origin, and an event of a
    mounted row leaves the anchor as it is unless it is a completed
    measurement, which sets it to (x + width, y + height). *)
Theorem anchor_written_only_by_measurement events e :
  threeDotsMenuPosition mount = {| horizontal := 0; vertical := 0 |}
  /\ (threeDotsMenuPosition (step (run mount events) e)
      = threeDotsMenuPosition (run mount events)
      \/ exists x y width height,
           e = MeasureDone x y width height
           /\ threeDotsMenuPosition (step (run mount events) e)
              = {| horizontal := (x + width)%float; vertical := (y + height)%float |}).
Proof.
  split; [reflexivity|].
  destruct e as [props view| |x y w h|].
  - left. reflexivity.
  - left. apply press_position.
  - rewrite measureDone_position by (apply run_wellFormed, wellFormed_mount).
    destruct (inFlight (run mount events)); [left; reflexivity|].
    right. exists x, y, w, h. split; reflexivity.
  - left. reflexivity.
Qed.

(** C8: opening the menu and measuring the same rectangle twice in a row
    leaves, after the second time, the anchor the first time left; that
    anchor is (x + width, y + height) whenever a measurement was in flight
    after the press. *)
Theorem triggerAndMeasure_idempotent events x y width height :
  threeDotsMenuPosition
    (triggerAndMeasure (triggerAndMeasure (run mount events) x y width height)
       x y width height)
  = threeDotsMenuPosition (triggerAndMeasure (run mount events) x y width height)
  /\ threeDotsMenuPosition (triggerAndMeasure (run mount events) x y width height)
     = match inFlight (step (run mount events) IconPress) with
       | [] => threeDotsMenuPosition (run mount events)
       | _ :: _ => {| horizontal := (x + width)%float; vertical := (y + height)%float |}
       end.
Proof.
  set (s := run mount events).
  assert (Hs : wellFormed s) by (apply run_wellFormed, wellFormed_mount).
  assert (H1 : wellFormed (step s IconPress)) by (apply step_wellFormed, Hs).
  assert (Hfirst : threeDotsMenuPosition (triggerAndMeasure s x y width height)
                   = match inFlight (step s IconPress) with
                     | [] => threeDotsMenuPosition s
                     | _ :: _ => bottomRight x y width height
                     end).
  { unfold triggerAndMeasure.
    rewrite (measureDone_position _ x y width height H1).
    destruct (inFlight (step s IconPress)); [apply press_position | reflexivity]. }
  split; [|exact Hfirst].
  assert (H2 : wellFormed (triggerAndMeasure s x y width height))
    by (apply step_wellFormed, H1).
  assert (H3 : wellFormed (step (triggerAndMeasure s x y width height) IconPress))
    by (apply step_wellFormed, H2).
  unfold triggerAndMeasure at 1.
  rewrite (measureDone_position _ x y width height H3).
  destruct (inFlight (step (triggerAndMeasure s x y width height) IconPress)) eqn:E2.
  - apply press_position.
  - rewrite Hfirst.
    destruct (inFlight (step s IconPress)) as [|r rest] eqn:E1; [|reflexivity].
    exfalso.
    (* nothing was in flight after the first press: the first trigger did
       nothing, so the second press cannot have found a request either *)
    unfold triggerAndMeasure in E2.
    destruct (press_cases s Hs) as [E | [view E]].
    + rewrite E in E1, E2.
      rewrite (measureDone_idle s x y width height E1), E, E1 in E2.
      discriminate.
    + rewrite E in E1. cbn in E1. destruct (inFlight s); discriminate.
Qed.

(** ** The anchor in the narrow layout *)




(** ** Further properties of the mapper, the indicator and the owner *)

(** X1: the status indicator renders nothing exactly when the status is
    absent or the empty string; whatever it renders is the dot icon, filled
    with the danger colour for the ERROR status and with the success colour
    for every other status. *)
Theorem BrickRoadIndicatorIcon_render_cases status :
  (BrickRoadIndicatorIcon_render status = None <-> status = None \/ status = Some "")
  /\ forall e, BrickRoadIndicatorIcon_render status = Some e ->
       exists fill,
         e = Icon {| icon_src := DotIndicator; icon_fill := Some fill;
                     icon_width := None; icon_height := None;
                     icon_additionalStyles := None |}
         /\ (status = Some (BRICK_ROAD_INDICATOR_STATUS_ERROR CONST) -> fill = danger theme)
         /\ (status <> Some (BRICK_ROAD_INDICATOR_STATUS_ERROR CONST) ->
             fill = iconSuccessFill theme).
Proof.
  unfold BrickRoadIndicatorIcon_render, truthy_string.
  destruct status as [s|].
  - destruct (s =? "") eqn:Ee; cbn.
    + apply String.eqb_eq in Ee. subst s. split.
      * split; auto.
      * discriminate.
    + split.
      * split; [discriminate|].
        intros [H | H]; [discriminate|]. injection H as ->. discriminate.
      * intros e H. injection H as <-.
        destruct (s =? BRICK_ROAD_INDICATOR_STATUS_ERROR CONST) eqn:Er;
          eexists; (split; [reflexivity|]).
        -- split; [reflexivity|]. apply String.eqb_eq in Er. subst s.
           intro H. contradiction H. reflexivity.
        -- split; [|reflexivity]. apply String.eqb_neq in Er.
           intro H. injection H as H. contradiction.
  - split; [split; auto | discriminate].
Qed.

(** X2: the icon tells FREE and CORPORATE apart from everything else: it is
    the hand card exactly for FREE, the shield exactly for CORPORATE, the
    mailbox for every other type, and never the status dot. *)
Theorem workspaceTypeIcon_identifies (workspaceType : string) :
  policy_types_distinct CONST = true ->
  (workspaceTypeIcon workspaceType = HandCard <-> workspaceType = POLICY_TYPE_FREE CONST)
  /\ (workspaceTypeIcon workspaceType = ShieldYellow
      <-> workspaceType = POLICY_TYPE_CORPORATE CONST)
  /\ (workspaceTypeIcon workspaceType = Mailbox
      <-> workspaceType <> POLICY_TYPE_FREE CONST
          /\ workspaceType <> POLICY_TYPE_CORPORATE CONST)
  /\ workspaceTypeIcon workspaceType <> DotIndicator.
Proof.
  intro Hd. destruct (policy_types_distinct_inv Hd) as (Hfc & _ & _).
  unfold workspaceTypeIcon.
  destruct (workspaceType =? POLICY_TYPE_FREE CONST) eqn:Ef.
  - apply String.eqb_eq in Ef. subst workspaceType.
    repeat split; try discriminate; auto.
    + intro H. apply String.eqb_neq in Hfc. contradiction.
    + intros [H _]. contradiction H. reflexivity.
  - apply String.eqb_neq in Ef.
    destruct (workspaceType =? POLICY_TYPE_CORPORATE CONST) eqn:Ec.
    + apply String.eqb_eq in Ec.
      repeat split; try discriminate; auto.
      * intro H. contradiction.
      * intros [_ H]. contradiction.
    + apply String.eqb_neq in Ec.
      destruct (workspaceType =? POLICY_TYPE_TEAM CONST);
        repeat split; try discriminate; auto; intro H; contradiction.
Qed.

(** X3: a truthy owner account ID is looked up in the directory on every call
    of the component, exactly once and with the viewer's account ID, whatever
    the layout is, also when the component returns null; a falsy or absent
    one is never looked up. *)
Theorem directory_called_iff_truthy props pos :
  (forall id, ownerAccountID props = Some id -> truthy_number id = true ->
     snd (WorkspacesListRow props pos)
     = [{| call_accountIDs := [id];
           call_currentUserAccountID := accountID (currentUserPersonalDetails props) |}])
  /\ (forall id, ownerAccountID props = Some id -> truthy_number id = false ->
        snd (WorkspacesListRow props pos) = [])
  /\ (ownerAccountID props = None -> snd (WorkspacesListRow props pos) = []).
Proof.
  rewrite WorkspacesListRow_calls. repeat split.
  - intros id H Ht. rewrite H. apply ownerDetails_truthy. exact Ht.
  - intros id H Hf. rewrite H, (ownerDetails_falsy id _ Hf). reflexivity.
  - intro H. rewrite H. reflexivity.
Qed.

(** X4: an owner account ID that is falsy (0, -0, NaN), or that the directory
    has no record for, renders the same tree as no owner account ID. *)
Theorem owner_unresolved_like_absent props pos id :
  ownerAccountID props = Some id ->
  truthy_number id = false
  \/ getPersonalDetailsByIDs [id] (accountID (currentUserPersonalDetails props)) = [] ->
  fst (WorkspacesListRow props pos)
  = fst (WorkspacesListRow (withOwnerAccountID props None) pos).
Proof.
  intros H Hno.
  assert (Ho : exists owner calls,
             ownerDetails (ownerAccountID props) (currentUserPersonalDetails props)
             = (owner, calls) /\ truthy_owner owner = false).
  { rewrite H. unfold ownerDetails.
    destruct (truthy_number id) eqn:Et.
    - destruct Hno as [Hf | He]; [discriminate|]. rewrite He.
      do 2 eexists. split; reflexivity.
    - do 2 eexists. split; [reflexivity|]. exact Et. }
  destruct Ho as (owner & calls & Ho & Hfalse).
  unfold WorkspacesListRow. rewrite Ho.
  cbn [withOwnerAccountID ownerAccountID layoutWidth currentUserPersonalDetails
       workspaceType title workspaceIcon fallbackWorkspaceIcon menuItems rowStyles
       brickRoadIndicator].
  rewrite ownerDetails_absent, Hfalse.
  destruct (_ =? LAYOUT_WIDTH_NONE CONST); reflexivity.
Qed.

(** X5: when the directory has records for a truthy owner account ID, the
    owner section shows the first of them: its avatar in the small size, the
    display name the directory helper gives for it, and its login. *)
Theorem owner_found_rendered props pos id d rest row :
  ownerAccountID props = Some id ->
  truthy_number id = true ->
  getPersonalDetailsByIDs [id] (accountID (currentUserPersonalDetails props)) = d :: rest ->
  fst (WorkspacesListRow props pos) = Some row ->
  exists style,
    ownerSection row
    = Some (View style false
              [ Fragment
                  [ Avatar {| avatar_imageStyles := None;
                              avatar_size := AVATAR_SIZE_SMALL CONST;
                              avatar_source := Some (avatar d);
                              avatar_fallbackIcon := None;
                              avatar_name := None;
                              avatar_type := None;
                              avatar_containerStyles :=
                                Some (styles workspaceOwnerAvatarWrapper) |};
                    View (Some (styles flex1)) false
                      [ Text 1 (SArray [styles labelStrong]) (getDisplayNameOrDefault d);
                        Text 1 (SArray [styles textMicro; styles textSupporting])
                          (login d) ] ] ]).
Proof.
  intros H Ht Hd. unfold WorkspacesListRow. rewrite H.
  unfold ownerDetails. rewrite Ht, Hd.
  destruct (_ =? LAYOUT_WIDTH_NONE CONST); [discriminate|].
  cbn. intro E. inversion E; subst row; clear E.
  eexists. reflexivity.
Qed.

(** ** Further properties of the layout *)

(** X6: a [layoutWidth] that is none of NONE, NARROW and WIDE still renders
    the row, with its four children, but with no three-dots menu and no
    status indicator anywhere, and the ref attached to nothing. *)
Theorem unknown_layout_has_no_controls props pos width :
  layoutWidth props = Some width ->
  width <> LAYOUT_WIDTH_NONE CONST ->
  width <> LAYOUT_WIDTH_NARROW CONST ->
  width <> LAYOUT_WIDTH_WIDE CONST ->
  exists row,
    fst (WorkspacesListRow props pos) = Some row
    /\ length (sections row) = 4
    /\ threeDotsMenus row = []
    /\ brickRoadIndicators row = []
    /\ hasRef row = false.
Proof.
  intros H H0 Hn Hw. apply String.eqb_neq in H0, Hn, Hw.
  unfold WorkspacesListRow. rewrite H. owner_cases; rewrite H0, Hn, Hw;
    cbn; try destruct (truthy_number n); cbn;
    eexists; repeat split; reflexivity.
Qed.

(** X7: a rendered row has at most one three-dots menu; the menu carries the
    caller's menu items unchanged, and comes with exactly one status
    indicator element, which carries the caller's status unchanged. *)
Theorem controls_carry_props props pos row :
  layout_widths_distinct CONST = true ->
  fst (WorkspacesListRow props pos) = Some row ->
  length (threeDotsMenus row) <= 1
  /\ Forall (fun m => menu_menuItems m = menuItems props) (threeDotsMenus row)
  /\ brickRoadIndicators row
     = map (fun _ => brickRoadIndicator props) (threeDotsMenus row).
Proof.
  intros Hd. unfold WorkspacesListRow.
  destruct (layoutWidth props) as [w|].
  2: { destruct (ownerDetails _ _). rewrite String.eqb_refl. discriminate. }
  destruct (layout_widths_distinct_inv Hd) as (_ & _ & Hrw).
  owner_cases;
    (destruct (_ =? LAYOUT_WIDTH_NONE CONST); [discriminate|]);
    destruct (w =? LAYOUT_WIDTH_WIDE CONST) eqn:Ew;
    destruct (w =? LAYOUT_WIDTH_NARROW CONST) eqn:En;
    try (apply String.eqb_eq in Ew, En; rewrite <- Ew, <- En, String.eqb_refl in Hrw;
         discriminate);
    cbn; try destruct (truthy_number n); cbn;
    intro H; inversion H; subst row; clear H; cbn;
    repeat split; auto.
Qed.

(** X8: the caller's [rowStyles] reach the root view only: with other
    [rowStyles] the component returns null for the same inputs, makes the
    same directory calls, and renders the same children. *)
Theorem rowStyles_only_at_root props pos rowStyles :
  snd (WorkspacesListRow (withRowStyles props rowStyles) pos)
  = snd (WorkspacesListRow props pos)
  /\ (fst (WorkspacesListRow (withRowStyles props rowStyles) pos) = None
      <-> fst (WorkspacesListRow props pos) = None)
  /\ forall row row',
       fst (WorkspacesListRow props pos) = Some row ->
       fst (WorkspacesListRow (withRowStyles props rowStyles) pos) = Some row' ->
       sections row' = sections row.
Proof.
  unfold WorkspacesListRow.
  cbn [withRowStyles ownerAccountID layoutWidth currentUserPersonalDetails
       workspaceType title workspaceIcon fallbackWorkspaceIcon menuItems
       brickRoadIndicator].
  destruct (ownerDetails _ _) as [owner calls].
  destruct (_ =? LAYOUT_WIDTH_NONE CONST).
  - repeat split; auto; discriminate.
  - cbn. repeat split; try discriminate.
    intros row row' H H'. inversion H; inversion H'. reflexivity.
Qed.

(** ** Further properties of the mounted row *)

Lemma run_snoc s events e : run s (events ++ [e]) = step (run s events) e.
Proof. unfold run. rewrite fold_left_app. reflexivity. Qed.

Lemma presses_snoc events e :
  presses (events ++ [e])
  = presses events + match e with IconPress => 1 | _ => 0 end.
Proof.
  unfold presses. rewrite filter_app, length_app.
  destruct e; reflexivity.
Qed.

(** A press adds at most one measurement; nothing else adds any. *)
Lemma step_inFlight_length s e :
  length (inFlight (step s e))
  <= length (inFlight s) + match e with IconPress => 1 | _ => 0 end.
Proof.
  destruct e as [props view| |x y w h|]; cbn.
  - lia.
  - destruct (committed s); [|lia].
    destruct (threeDotsMenus _); [lia|].
    destruct (ThreeDotsMenu_press _ _); [|lia].
    cbn. rewrite length_app. cbn. lia.
  - destruct (inFlight s) as [|[view callback] rest] eqn:E; [rewrite E; cbn; lia|].
    destruct (callback x y w h). cbn. lia.
  - destruct (inFlight s); cbn; lia.
Qed.

(** X9: at any time the anchor of a mounted row is the origin or the
    bottom-right corner (x + width, y + height) of a rectangle the host
    reported in one of the completed measurements so far. *)
Theorem anchor_is_origin_or_measured events :
  threeDotsMenuPosition (run mount events) = {| horizontal := 0; vertical := 0 |}
  \/ exists x y width height,
       In (MeasureDone x y width height) events
       /\ threeDotsMenuPosition (run mount events)
          = {| horizontal := (x + width)%float; vertical := (y + height)%float |}.
Proof.
  induction events as [|e events IH] using rev_ind; [left; reflexivity|].
  rewrite run_snoc.
  assert (Hs : wellFormed (run mount events)) by (apply run_wellFormed, wellFormed_mount).
  assert (Hkeep : threeDotsMenuPosition (step (run mount events) e)
                  = threeDotsMenuPosition (run mount events) ->
                  threeDotsMenuPosition (step (run mount events) e)
                  = {| horizontal := 0; vertical := 0 |}
                  \/ exists x y width height,
                       In (MeasureDone x y width height) (events ++ [e])
                       /\ threeDotsMenuPosition (step (run mount events) e)
                          = {| horizontal := (x + width)%float;
                               vertical := (y + height)%float |}).
  { intro E. rewrite E. destruct IH as [IH | (x & y & w & h & Hin & IH)]; [left; exact IH|].
    right. exists x, y, w, h. split; [apply in_or_app; left; exact Hin | exact IH]. }
  destruct e as [props view| |x y w h|].
  - apply Hkeep. reflexivity.
  - apply Hkeep. apply press_position.
  - rewrite (measureDone_position _ x y w h Hs) in *.
    destruct (inFlight (run mount events)); [apply Hkeep; reflexivity|].
    right. exists x, y, w, h. split; [|reflexivity].
    apply in_or_app. right. left. reflexivity.
  - apply Hkeep. reflexivity.
Qed.

(** X10: a mounted row never has more measurements in flight than the icon
    was pressed, and while the icon has not been pressed the anchor is the
    origin, whatever was rendered and whatever the host reported. *)
Theorem measurements_need_presses events :
  length (inFlight (run mount events)) <= presses events
  /\ (presses events = 0 ->
      threeDotsMenuPosition (run mount events) = {| horizontal := 0; vertical := 0 |}).
Proof.
  induction events as [|e events [IHl IHp]] using rev_ind.
  - split; [cbn; lia | reflexivity].
  - rewrite run_snoc, presses_snoc. split.
    + pose proof (step_inFlight_length (run mount events) e). lia.
    + intro H0.
      assert (Hp : presses events = 0) by lia.
      assert (Hq : inFlight (run mount events) = []).
      { destruct (inFlight (run mount events)); [reflexivity | cbn in IHl; lia]. }
      rewrite <- (IHp Hp).
      destruct e as [props view| |x y w h|].
      * reflexivity.
      * exfalso. lia.
      * rewrite (measureDone_idle _ x y w h Hq). reflexivity.
      * reflexivity.
Qed.

(** A press right after a WIDE render adds one measurement, on the view just
    committed. *)
Lemma press_after_wide_render s props view :
  layout_widths_distinct CONST = true ->
  layoutWidth props = Some (LAYOUT_WIDTH_WIDE CONST) ->
  step (step s (Render props view)) IconPress
  = withInFlight (step s (Render props view))
      (inFlight s ++ [measureInWindow view measureCallback]).
Proof.
  intros Hd Hw.
  destruct (wide_menu props (threeDotsMenuPosition s) Hd Hw)
    as (row & menu & Hrow & Hmenus & _ & Hh & Href).
  cbn. rewrite Hrow, Hmenus, Href.
  unfold ThreeDotsMenu_press. rewrite Hh. reflexivity.
Qed.

(** X11: right after a render, pressing the icon starts a measurement exactly
    when the render was WIDE; the measurement is then the only one added, is
    made on the container view just committed and carries the callback that
    sets the anchor.  After any other render a press changes nothing. *)
Theorem press_measures_iff_wide s props view :
  layout_widths_distinct CONST = true ->
  (layoutWidth props = Some (LAYOUT_WIDTH_WIDE CONST) ->
   step (step s (Render props view)) IconPress
   = withInFlight (step s (Render props view))
       (inFlight s ++ [measureInWindow view measureCallback]))
  /\ (layoutWidth props <> Some (LAYOUT_WIDTH_WIDE CONST) ->
      step (step s (Render props view)) IconPress = step s (Render props view)).
Proof.
  intro Hd. split.
  - intro Hw. apply press_after_wide_render; assumption.
  - intro Hnw. cbn.
    destruct (fst (WorkspacesListRow props (threeDotsMenuPosition s)))
      as [tree|] eqn:Et; [|reflexivity].
    pose proof (rendered_handlers _ _ _ Et) as Hall.
    destruct (threeDotsMenus tree) as [|menu rest] eqn:Em; [reflexivity|].
    inversion Hall as [|? ? Hm _]; subst.
    unfold ThreeDotsMenu_press.
    destruct Hm as [Hm | Hm]; rewrite Hm; [reflexivity|].
    exfalso. apply Hnw.
    apply (handler_only_wide props (threeDotsMenuPosition s) tree menu Et).
    + rewrite Em. left. reflexivity.
    + rewrite Hm. discriminate.
Qed.

(** X12: from any state of a mounted row, render WIDE, open the menu and let
    the host report a rectangle: the anchor is its bottom-right corner, and
    the next WIDE render passes that corner to the menu as its anchor. *)
Theorem wide_menu_follows_measurement events props view props' view' x y width height :
  layout_widths_distinct CONST = true ->
  layoutWidth props = Some (LAYOUT_WIDTH_WIDE CONST) ->
  layoutWidth props' = Some (LAYOUT_WIDTH_WIDE CONST) ->
  threeDotsMenuPosition
    (triggerAndMeasure (step (run mount events) (Render props view)) x y width height)
  = {| horizontal := (x + width)%float; vertical := (y + height)%float |}
  /\ exists row menu,
       committed
         (step (triggerAndMeasure (step (run mount events) (Render props view))
                  x y width height)
            (Render props' view'))
       = Some row
       /\ threeDotsMenus row = [menu]
       /\ anchorPosition menu
          = {| horizontal := (x + width)%float; vertical := (y + height)%float |}.
Proof.
  intros Hd Hw Hw'.
  set (s := step (run mount events) (Render props view)).
  assert (Hs : wellFormed s)
    by (apply step_wellFormed, run_wellFormed, wellFormed_mount).
  assert (Hpos : threeDotsMenuPosition (triggerAndMeasure s x y width height)
                 = bottomRight x y width height).
  { unfold triggerAndMeasure.
    rewrite measureDone_position by (apply step_wellFormed, Hs).
    unfold s. rewrite (press_after_wide_render _ _ _ Hd Hw).
    cbn. destruct (inFlight (run mount events)); reflexivity. }
  split; [exact Hpos|].
  destruct (wide_menu props' (bottomRight x y width height) Hd Hw')
    as (row & menu & Hrow & Hmenus & Hanchor & _).
  exists row, menu. cbn [step committed]. rewrite Hpos.
  repeat split; assumption.
Qed.

(** X13: whatever the layout, a rendered row shows in its identity section
    the workspace avatar (the workspace icon, its fallback, the title as
    name) and the title, and in its type section the mapper's icon, as wide
    as high, and the mapper's label above the translated plan caption. *)
Theorem identity_and_type_sections props pos row :
  fst (WorkspacesListRow props pos) = Some row ->
  (exists style slot,
     identitySection row
     = Some (View style false
               [ Avatar {| avatar_imageStyles := Some (SArray [styles alignSelfCenter]);
                           avatar_size := AVATAR_SIZE_DEFAULT CONST;
                           avatar_source := workspaceIcon props;
                           avatar_fallbackIcon := fallbackWorkspaceIcon props;
                           avatar_name := Some (title props);
                           avatar_type := Some (ICON_TYPE_WORKSPACE CONST);
                           avatar_containerStyles := None |};
                 Text 1 (SArray [styles flex1; styles flexGrow1; styles textStrong])
                   (title props);
                 slot ]))
  /\ (exists style,
        typeSection row
        = Some (View style false
                  [ Icon {| icon_src := workspaceTypeIcon (workspaceType props);
                            icon_fill := None;
                            icon_width := Some variables_workspaceTypeIconWidth;
                            icon_height := Some variables_workspaceTypeIconWidth;
                            icon_additionalStyles := Some (styles workspaceTypeWrapper) |};
                    View (Some (styles flex1)) false
                      [ Text 1 (SArray [styles labelStrong])
                          (userFriendlyWorkspaceType (workspaceType props));
                        Text 1 (SArray [styles textMicro; styles textSupporting])
                          (translate "workspace.common.plan") ] ])).
Proof.
  unfold WorkspacesListRow.
  destruct (ownerDetails _ _) as [owner calls].
  destruct (_ =? LAYOUT_WIDTH_NONE CONST); [discriminate|].
  cbn. intro H. inversion H; subst row; clear H.
  split; [do 2 eexists | eexists]; reflexivity.
Qed.

End Row.

(** * A concrete row

    The component instantiated with string-valued collaborators: the values
    of the constants, an English translation table, and a directory in which
    every account is Jane Doe. *)

Arguments EFalse {AvatarSource PopoverMenuItem ViewStyle}.
Arguments Fragment {AvatarSource PopoverMenuItem ViewStyle} children.
Arguments View {AvatarSource PopoverMenuItem ViewStyle} style ref children.
Arguments BrickRoadIndicatorIcon {AvatarSource PopoverMenuItem ViewStyle} brickRoadIndicator.
Arguments SFalse {ViewStyle}.
Arguments SArray {ViewStyle} l.
Arguments styles {ViewStyle} k.
Arguments displayName {AvatarSource} p.
Arguments login {AvatarSource} p.
Arguments ownerAccountID {AvatarSource PopoverMenuItem ViewStyle} w.
Arguments layoutWidth {AvatarSource PopoverMenuItem ViewStyle} w.
Arguments sections {AvatarSource PopoverMenuItem ViewStyle} row.
Arguments ownerSection {AvatarSource PopoverMenuItem ViewStyle} row.
Arguments threeDotsMenus {AvatarSource PopoverMenuItem ViewStyle} e.
Arguments anchorPosition {PopoverMenuItem ViewStyle} t.
Arguments onIconPress {PopoverMenuItem ViewStyle} t.
Arguments threeDotsMenuPosition {AvatarSource PopoverMenuItem ViewStyle} i.
Arguments inFlight {AvatarSource PopoverMenuItem ViewStyle} i.
Arguments Render {AvatarSource PopoverMenuItem ViewStyle} props view.
Arguments IconPress {AvatarSource PopoverMenuItem ViewStyle}.
Arguments MeasureDone {AvatarSource PopoverMenuItem ViewStyle} x y width height.
Arguments MeasureDropped {AvatarSource PopoverMenuItem ViewStyle}.
Arguments WorkspacesListRow {AvatarSource PopoverMenuItem ViewStyle}.
Arguments mount {AvatarSource PopoverMenuItem ViewStyle}.
Arguments step {AvatarSource PopoverMenuItem ViewStyle}.
Arguments run {AvatarSource PopoverMenuItem ViewStyle}.
Arguments triggerAndMeasure {AvatarSource PopoverMenuItem ViewStyle}.

Definition appCONST : CONST_t :=
  {| POLICY_TYPE_FREE := "free";
     POLICY_TYPE_CORPORATE := "corporate";
     POLICY_TYPE_TEAM := "team";
     LAYOUT_WIDTH_WIDE := "wide";
     LAYOUT_WIDTH_NARROW := "narrow";
     LAYOUT_WIDTH_NONE := "none";
     BRICK_ROAD_INDICATOR_STATUS_ERROR := "error";
     AVATAR_SIZE_DEFAULT := "default";
     AVATAR_SIZE_SMALL := "small";
     ICON_TYPE_WORKSPACE := "workspace";
     MODAL_ANCHOR_ORIGIN_HORIZONTAL_RIGHT := "right";
     MODAL_ANCHOR_ORIGIN_VERTICAL_TOP := "top" |}.

Definition translateEN (key : string) : string :=
  if key =? "workspace.type.free" then "Free"
  else if key =? "workspace.type.control" then "Control"
  else if key =? "workspace.type.collect" then "Collect"
  else if key =? "workspace.common.plan" then "Plan"
  else key.

Definition janeDirectory (accountIDs : list number) (currentUserAccountID : number)
  : list (PersonalDetails string) :=
  map (fun id => {| accountID := id; displayName := "Jane Doe";
                    login := "jane@x.com"; avatar := "jane.png" |}) accountIDs.

Definition displayNameOf (d : PersonalDetails string) : string :=
  if displayName d =? "" then login d else displayName d.

Definition viewer : PersonalDetails string :=
  {| accountID := 7; displayName := "Viewer"; login := "viewer@x.com"; avatar := "viewer.png" |}.

(** The workspace "Acme" of the scenarios, by owner, type and layout. *)
Definition acme (owner : option number) (type : string) (layout : option string)
  : WorkspacesListRowProps string string unit :=
  {| title := "Acme";
     ownerAccountID := owner;
     workspaceType := type;
     workspaceIcon := None;
     fallbackWorkspaceIcon := None;
     menuItems := ["Go to workspace"; "Delete workspace"];
     layoutWidth := layout;
     rowStyles := None;
     brickRoadIndicator := None;
     currentUserPersonalDetails := viewer |}.

Definition renderApp (props : WorkspacesListRowProps string string unit)
    (position : AnchorPosition) :=
  WorkspacesListRow appCONST 32 translateEN janeDirectory displayNameOf props position.

Definition origin : AnchorPosition := {| horizontal := 0; vertical := 0 |}.

(** The mounted row of the scenarios and its events. *)
Definition mountApp : Instance string string unit := mount.

Definition runApp (events : list (Event string string unit)) : Instance string string unit :=
  run appCONST 32 translateEN janeDirectory displayNameOf mountApp events.

(** Render WIDE, then press the icon: one measurement is in flight. *)
Definition wideThenPress : list (Event string string unit) :=
  [Render (acme (Some 42%float) "corporate" (Some "wide")) 5; IconPress].

Definition stepApp (s : Instance string string unit) (e : Event string string unit)
  : Instance string string unit :=
  step appCONST 32 translateEN janeDirectory displayNameOf s e.

(** The style of the owner and type sections in the WIDE layout. *)
Definition wideSectionStyle : option (Style unit) :=
  Some (SArray [styles flexRow; styles flex1; styles gap2; SFalse; styles alignItemsCenter]).

(** ** The scenarios of the row, evaluated *)

Example acme_wide_owner_block :
  exists row,
    fst (renderApp (acme (Some 42%float) "corporate" (Some "wide")) origin) = Some row
    /\ ownerSection row
       = Some (View wideSectionStyle false
                 [Fragment
                    [Avatar _ _ _
                       {| avatar_imageStyles := None;
                          avatar_size := "small";
                          avatar_source := Some "jane.png";
                          avatar_fallbackIcon := None;
                          avatar_name := None;
                          avatar_type := None;
                          avatar_containerStyles := Some (styles workspaceOwnerAvatarWrapper) |};
                     View (Some (styles flex1)) false
                       [Text _ _ _ 1 (SArray [styles labelStrong]) "Jane Doe";
                        Text _ _ _ 1 (SArray [styles textMicro; styles textSupporting])
                          "jane@x.com"]]])
    /\ typeIconAndLabel appCONST translateEN "corporate" = (ShieldYellow, "Control").
Proof. eexists. repeat split. Qed.

Example acme_wide_directory_called_once :
  snd (renderApp (acme (Some 42%float) "corporate" (Some "wide")) origin)
  = [{| call_accountIDs := [42%float]; call_currentUserAccountID := 7%float |}].
Proof. reflexivity. Qed.

Example acme_wide_measured_twice :
  threeDotsMenuPosition
    (triggerAndMeasure appCONST 32 translateEN janeDirectory displayNameOf
       (runApp [Render (acme (Some 42%float) "corporate" (Some "wide")) 5]) 10 20 30 40)
  = {| horizontal := 40; vertical := 60 |}
  /\ threeDotsMenuPosition
       (triggerAndMeasure appCONST 32 translateEN janeDirectory displayNameOf
          (triggerAndMeasure appCONST 32 translateEN janeDirectory displayNameOf
             (runApp [Render (acme (Some 42%float) "corporate" (Some "wide")) 5]) 10 20 30 40)
          10 20 30 40)
     = {| horizontal := 40; vertical := 60 |}.
Proof. split; reflexivity. Qed.

(** A measurement started in the WIDE layout still writes the anchor if the
    host answers it after the row was rendered NARROW again. *)
Example measurement_outlives_wide_layout :
  threeDotsMenuPosition
    (runApp (wideThenPress
             ++ [Render (acme (Some 42%float) "corporate" (Some "narrow")) 5;
                 MeasureDone 10 20 30 40]))
  = {| horizontal := 40; vertical := 60 |}.
Proof. reflexivity. Qed.

(** ** The properties at the concrete row *)

Lemma WorkspacesListRow_unresolved_null_witness :
  layoutWidth (acme (Some 42%float) "corporate" (Some "none"))
  = Some (LAYOUT_WIDTH_NONE appCONST)
  /\ fst (renderApp (acme (Some 42%float) "corporate" (Some "none")) origin) = None
  /\ fst (renderApp (acme (Some 42%float) "corporate" None) origin) = None.
Proof.
  split; [reflexivity|]. split.
  - apply (WorkspacesListRow_unresolved_null _ _ _ appCONST 32%float translateEN
             janeDirectory displayNameOf).
    right. reflexivity.
  - apply (WorkspacesListRow_unresolved_null _ _ _ appCONST 32%float translateEN
             janeDirectory displayNameOf).
    left. reflexivity.
Defined.

Lemma workspaceType_default_asymmetric_witness :
  policy_types_distinct appCONST = true
  /\ "personal" <> POLICY_TYPE_FREE appCONST
  /\ "personal" <> POLICY_TYPE_CORPORATE appCONST
  /\ "personal" <> POLICY_TYPE_TEAM appCONST
  /\ workspaceTypeIcon appCONST "personal" = Mailbox
  /\ userFriendlyWorkspaceType appCONST translateEN "personal" = "Free".
Proof.
  assert (Hf : "personal" <> POLICY_TYPE_FREE appCONST) by discriminate.
  assert (Hc : "personal" <> POLICY_TYPE_CORPORATE appCONST) by discriminate.
  assert (Ht : "personal" <> POLICY_TYPE_TEAM appCONST) by discriminate.
  destruct (workspaceType_default_asymmetric appCONST translateEN "personal"
              eq_refl Hf Hc Ht) as (Hi & _ & Hl & _).
  repeat split; assumption.
Defined.

Lemma workspaceType_known_pairs_witness :
  policy_types_distinct appCONST = true
  /\ typeIconAndLabel appCONST translateEN "free" = (HandCard, "Free")
  /\ typeIconAndLabel appCONST translateEN "corporate" = (ShieldYellow, "Control")
  /\ typeIconAndLabel appCONST translateEN "team" = (Mailbox, "Collect").
Proof.
  destruct (workspaceType_known_pairs appCONST translateEN eq_refl)
    as (Hf & Hc & Ht & _).
  repeat split; assumption.
Defined.

Lemma measurement_sets_bottom_right_witness :
  inFlight (runApp wideThenPress) <> []
  /\ threeDotsMenuPosition (stepApp (runApp wideThenPress) (MeasureDone 10 20 30 40))
     = {| horizontal := 40; vertical := 60 |}.
Proof.
  assert (Hne : inFlight (runApp wideThenPress) <> []) by (vm_compute; discriminate).
  split; [exact Hne|].
  exact (proj1 (measurement_sets_bottom_right _ _ _ appCONST 32%float translateEN
                  janeDirectory displayNameOf wideThenPress 10 20 30 40 Hne)).
Defined.

Lemma owner_absent_empty_container_witness :
  ownerAccountID (acme None "corporate" (Some "narrow")) = None
  /\ snd (renderApp (acme None "corporate" (Some "narrow")) origin) = []
  /\ exists row,
       fst (renderApp (acme None "corporate" (Some "narrow")) origin) = Some row
       /\ length (sections row) = 4
       /\ ownerSection row
          = Some (View
                    (Some (SArray [styles flexRow; SFalse; styles gap2; styles mr5;
                                   styles alignItemsCenter]))
                    false [EFalse]).
Proof.
  split; [reflexivity|].
  destruct (owner_absent_empty_container _ _ _ appCONST 32%float translateEN
              janeDirectory displayNameOf
              (acme None "corporate" (Some "narrow")) origin eq_refl)
    as [Hcalls Hrow].
  split; [exact Hcalls|].
  assert (Hn : "narrow" <> LAYOUT_WIDTH_NONE appCONST) by discriminate.
  exact (Hrow "narrow" eq_refl Hn).
Defined.

Lemma owner_zero_like_absent_witness :
  ownerAccountID (acme (Some 0%float) "corporate" (Some "wide")) = Some 0%float
  /\ renderApp (acme (Some 0%float) "corporate" (Some "wide")) origin
     = renderApp (acme None "corporate" (Some "wide")) origin
  /\ exists row,
       fst (renderApp (acme (Some 0%float) "corporate" (Some "wide")) origin) = Some row
       /\ length (sections row) = 4
       /\ ownerSection row = Some (View wideSectionStyle false [EFalse]).
Proof.
  split; [reflexivity|].
  destruct (owner_zero_like_absent _ _ _ appCONST 32%float translateEN
              janeDirectory displayNameOf
              (acme (Some 0%float) "corporate" (Some "wide")) origin eq_refl)
    as (Hsame & _ & _ & Hrow).
  split; [exact Hsame|].
  assert (Hn : "wide" <> LAYOUT_WIDTH_NONE appCONST) by discriminate.
  exact (Hrow "wide" eq_refl Hn).
Defined.

Lemma layout_controls_placement_witness :
  layout_widths_distinct appCONST = true
  /\ (exists row,
        fst (renderApp (acme (Some 42%float) "corporate" (Some "narrow")) origin) = Some row
        /\ controlsInline _ _ _ row = true /\ controlsTrailing _ _ _ row = false)
  /\ (exists row,
        fst (renderApp (acme (Some 42%float) "corporate" (Some "wide")) origin) = Some row
        /\ controlsInline _ _ _ row = false /\ controlsTrailing _ _ _ row = true).
Proof.
  split; [reflexivity|]. split.
  - destruct (proj1 (layout_controls_placement _ _ _ appCONST 32%float translateEN
                       janeDirectory displayNameOf
                       (acme (Some 42%float) "corporate" (Some "narrow")) origin eq_refl)
                eq_refl)
      as (row & identity & menu & Hrow & _ & _ & _ & Hi & Ht).
    exists row. repeat split; assumption.
  - destruct (proj1 (proj2 (layout_controls_placement _ _ _ appCONST 32%float translateEN
                              janeDirectory displayNameOf
                              (acme (Some 42%float) "corporate" (Some "wide")) origin eq_refl))
                eq_refl)
      as (row & identity & style & menu & Hrow & _ & _ & _ & Hi & Ht).
    exists row. repeat split; assumption.
Defined.


(** C5 as stated fails: with [ownerAccountID] absent the row still has four
    children, and the one in the owner's place is the owner section's
    container view, with the style it has when there is an owner. *)
Lemma owner_absent_container_rendered :
  ownerAccountID (acme None "corporate" (Some "wide")) = None
  /\ exists row,
       fst (renderApp (acme None "corporate" (Some "wide")) origin) = Some row
       /\ length (sections row) = 4
       /\ ownerSection row = Some (View wideSectionStyle false [EFalse])
       /\ ownerSection row <> None.
Proof.
  split; [reflexivity|]. eexists.
  split; [reflexivity|]. split; [reflexivity|]. split; [reflexivity|].
  discriminate.
Qed.

(** C9 as stated fails in the same way: with [ownerAccountID = 0] the owner
    section is not omitted; its container view is rendered in the owner's
    place, empty. *)
Lemma owner_zero_container_rendered :
  ownerAccountID (acme (Some 0%float) "corporate" (Some "wide")) = Some 0%float
  /\ exists row,
       fst (renderApp (acme (Some 0%float) "corporate" (Some "wide")) origin) = Some row
       /\ length (sections row) = 4
       /\ ownerSection row = Some (View wideSectionStyle false [EFalse])
       /\ ownerSection row <> None.
Proof.
  split; [reflexivity|]. eexists.
  split; [reflexivity|]. split; [reflexivity|]. split; [reflexivity|].
  discriminate.
Qed.


(** * The further properties at the concrete row *)

Arguments brickRoadIndicators {AvatarSource PopoverMenuItem ViewStyle} e.
Arguments hasRef {AvatarSource PopoverMenuItem ViewStyle} e.
Arguments committed {AvatarSource PopoverMenuItem ViewStyle} i.
Arguments presses {AvatarSource PopoverMenuItem ViewStyle} events.
Arguments identitySection {AvatarSource PopoverMenuItem ViewStyle} row.
Arguments typeSection {AvatarSource PopoverMenuItem ViewStyle} row.
Arguments withRowStyles {AvatarSource PopoverMenuItem ViewStyle} props rowStyles.
Arguments withInFlight {AvatarSource PopoverMenuItem ViewStyle} s l.

(** A directory that knows nobody. *)
Definition emptyDirectory (accountIDs : list number) (currentUserAccountID : number)
  : list (PersonalDetails string) := [].

(** Jane Doe's record for account 42. *)
Definition jane : PersonalDetails string :=
  {| accountID := 42; displayName := "Jane Doe"; login := "jane@x.com";
     avatar := "jane.png" |}.

Example unknown_owner_like_absent :
  fst (WorkspacesListRow appCONST 32 translateEN emptyDirectory displayNameOf
         (acme (Some 42%float) "corporate" (Some "wide")) origin)
  = fst (WorkspacesListRow appCONST 32 translateEN emptyDirectory displayNameOf
           (acme None "corporate" (Some "wide")) origin).
Proof. reflexivity. Qed.

Lemma workspaceTypeIcon_identifies_witness :
  policy_types_distinct appCONST = true
  /\ (workspaceTypeIcon appCONST "personal" = Mailbox
      <-> "personal" <> "free" /\ "personal" <> "corporate").
Proof.
  split; [reflexivity|].
  exact (proj1 (proj2 (proj2 (workspaceTypeIcon_identifies appCONST "personal" eq_refl)))).
Defined.

Lemma directory_called_iff_truthy_witness :
  fst (renderApp (acme (Some 42%float) "corporate" None) origin) = None
  /\ snd (renderApp (acme (Some 42%float) "corporate" None) origin)
     = [{| call_accountIDs := [42%float]; call_currentUserAccountID := 7%float |}].
Proof.
  split; [reflexivity|].
  exact (proj1 (directory_called_iff_truthy _ _ _ appCONST 32%float translateEN
                  janeDirectory displayNameOf
                  (acme (Some 42%float) "corporate" None) origin)
           42%float eq_refl eq_refl).
Defined.

Lemma owner_unresolved_like_absent_witness :
  ownerAccountID (acme (Some nan) "corporate" (Some "wide")) = Some nan
  /\ truthy_number nan = false
  /\ fst (renderApp (acme (Some nan) "corporate" (Some "wide")) origin)
     = fst (renderApp (acme None "corporate" (Some "wide")) origin).
Proof.
  split; [reflexivity|]. split; [reflexivity|].
  exact (owner_unresolved_like_absent _ _ _ appCONST 32%float translateEN
           janeDirectory displayNameOf
           (acme (Some nan) "corporate" (Some "wide")) origin nan
           eq_refl (or_introl eq_refl)).
Defined.

Lemma owner_found_rendered_witness :
  ownerAccountID (acme (Some 42%float) "corporate" (Some "narrow")) = Some 42%float
  /\ truthy_number 42 = true
  /\ janeDirectory [42%float] 7 = [jane]
  /\ exists row style,
       fst (renderApp (acme (Some 42%float) "corporate" (Some "narrow")) origin) = Some row
       /\ ownerSection row
          = Some (View style false
                    [Fragment
                       [Avatar _ _ _
                          {| avatar_imageStyles := None;
                             avatar_size := "small";
                             avatar_source := Some "jane.png";
                             avatar_fallbackIcon := None;
                             avatar_name := None;
                             avatar_type := None;
                             avatar_containerStyles :=
                               Some (styles workspaceOwnerAvatarWrapper) |};
                        View (Some (styles flex1)) false
                          [Text _ _ _ 1 (SArray [styles labelStrong]) "Jane Doe";
                           Text _ _ _ 1 (SArray [styles textMicro; styles textSupporting])
                             "jane@x.com"]]]).
Proof.
  split; [reflexivity|]. split; [reflexivity|]. split; [reflexivity|].
  eexists.
  destruct (owner_found_rendered _ _ _ appCONST 32%float translateEN
              janeDirectory displayNameOf
              (acme (Some 42%float) "corporate" (Some "narrow")) origin
              42%float jane [] _ eq_refl eq_refl eq_refl eq_refl) as [style Hs].
  exists style. split; [reflexivity | exact Hs].
Defined.

Lemma unknown_layout_has_no_controls_witness :
  layoutWidth (acme (Some 42%float) "corporate" (Some "medium")) = Some "medium"
  /\ exists row,
       fst (renderApp (acme (Some 42%float) "corporate" (Some "medium")) origin) = Some row
       /\ threeDotsMenus row = []
       /\ brickRoadIndicators row = [].
Proof.
  split; [reflexivity|].
  assert (H0 : "medium" <> LAYOUT_WIDTH_NONE appCONST) by discriminate.
  assert (Hn : "medium" <> LAYOUT_WIDTH_NARROW appCONST) by discriminate.
  assert (Hw : "medium" <> LAYOUT_WIDTH_WIDE appCONST) by discriminate.
  destruct (unknown_layout_has_no_controls _ _ _ appCONST 32%float translateEN
              janeDirectory displayNameOf
              (acme (Some 42%float) "corporate" (Some "medium")) origin "medium"
              eq_refl H0 Hn Hw) as (row & Hrow & _ & Hm & Hb & _).
  exists row. repeat split; assumption.
Defined.

Lemma controls_carry_props_witness :
  layout_widths_distinct appCONST = true
  /\ exists row menu,
       fst (renderApp (acme (Some 42%float) "corporate" (Some "wide")) origin) = Some row
       /\ threeDotsMenus row = [menu]
       /\ menu_menuItems _ _ menu = ["Go to workspace"; "Delete workspace"]
       /\ brickRoadIndicators row = [None].
Proof.
  split; [reflexivity|]. do 2 eexists.
  split; [reflexivity|]. split; [reflexivity|].
  destruct (controls_carry_props _ _ _ appCONST 32%float translateEN
              janeDirectory displayNameOf
              (acme (Some 42%float) "corporate" (Some "wide")) origin _
              eq_refl eq_refl) as (_ & Hitems & Hind).
  split; [|exact Hind].
  inversion Hitems; assumption.
Defined.

Lemma measurements_need_presses_witness :
  presses [Render (acme (Some 42%float) "corporate" (Some "wide")) 5;
           MeasureDone 10 20 30 40; MeasureDropped] = 0
  /\ threeDotsMenuPosition
       (runApp [Render (acme (Some 42%float) "corporate" (Some "wide")) 5;
                MeasureDone 10 20 30 40; MeasureDropped])
     = origin.
Proof.
  split; [reflexivity|].
  exact (proj2 (measurements_need_presses _ _ _ appCONST 32%float translateEN
                  janeDirectory displayNameOf
                  [Render (acme (Some 42%float) "corporate" (Some "wide")) 5;
                   MeasureDone 10 20 30 40; MeasureDropped])
           eq_refl).
Defined.

Lemma press_measures_iff_wide_witness :
  layout_widths_distinct appCONST = true
  /\ inFlight (stepApp (stepApp mountApp
                          (Render (acme (Some 42%float) "corporate" (Some "wide")) 5))
                 IconPress)
     = [measureInWindow 5 measureCallback]
  /\ stepApp (stepApp mountApp
                (Render (acme (Some 42%float) "corporate" (Some "narrow")) 5))
       IconPress
     = stepApp mountApp (Render (acme (Some 42%float) "corporate" (Some "narrow")) 5).
Proof.
  split; [reflexivity|]. split.
  - unfold stepApp.
    rewrite (proj1 (press_measures_iff_wide _ _ _ appCONST 32%float translateEN
                      janeDirectory displayNameOf mountApp
                      (acme (Some 42%float) "corporate" (Some "wide")) 5 eq_refl)
               eq_refl).
    reflexivity.
  - apply (proj2 (press_measures_iff_wide _ _ _ appCONST 32%float translateEN
                    janeDirectory displayNameOf mountApp
                    (acme (Some 42%float) "corporate" (Some "narrow")) 5 eq_refl)).
    discriminate.
Defined.

Lemma wide_menu_follows_measurement_witness :
  layout_widths_distinct appCONST = true
  /\ threeDotsMenuPosition
       (triggerAndMeasure appCONST 32 translateEN janeDirectory displayNameOf
          (stepApp (runApp [MeasureDropped])
             (Render (acme (Some 42%float) "corporate" (Some "wide")) 5))
          10 20 30 40)
     = {| horizontal := 40; vertical := 60 |}.
Proof.
  split; [reflexivity|].
  exact (proj1 (wide_menu_follows_measurement _ _ _ appCONST 32%float translateEN
                  janeDirectory displayNameOf [MeasureDropped]
                  (acme (Some 42%float) "corporate" (Some "wide")) 5
                  (acme None "team" (Some "wide")) 6 10 20 30 40
                  eq_refl eq_refl eq_refl)).
Defined.

Lemma identity_and_type_sections_witness :
  exists row style,
    fst (renderApp (acme (Some 42%float) "team" (Some "narrow")) origin) = Some row
    /\ typeSection row
       = Some (View style false
                 [Icon _ _ _
                    {| icon_src := Mailbox;
                       icon_fill := None;
                       icon_width := Some 32%float;
                       icon_height := Some 32%float;
                       icon_additionalStyles := Some (styles workspaceTypeWrapper) |};
                  View (Some (styles flex1)) false
                    [Text _ _ _ 1 (SArray [styles labelStrong]) "Collect";
                     Text _ _ _ 1 (SArray [styles textMicro; styles textSupporting])
                       "Plan"]]).
Proof.
  eexists.
  destruct (proj2 (identity_and_type_sections _ _ _ appCONST 32%float translateEN
                     janeDirectory displayNameOf
                     (acme (Some 42%float) "team" (Some "narrow")) origin _ eq_refl))
    as [style Hs].
  exists style. split; [reflexivity | exact Hs].
Defined.
